(** * CredTech backend: the Flask request handlers of [backend/app.py]

    A shallow embedding of the six route handlers and the three error
    handlers of [app.py], together with the fragment of Python they rely
    on ([str.upper], [str.strip], truthiness, [len], [dict.get], iteration,
    [try]/[except]).

    - Strings are Rocq [string]s.  [upper] and [strip] follow Python on the
      ASCII range, which is where ticker symbols live: the letters [a]..[z]
      are the cased characters and the white space characters are the ten
      code points 9-13, 28-31 and 32.  Characters above 127 are left
      alone by both.
    - The three collaborators imported by [app.py]
      ([fetch_and_compute_credit_scores], [get_score_breakdown_data],
      [top_headlines]) are not part of the file; they are parameters of the
      model, each returning either a value or a raised exception.
    - A handler is a computation in a small monad that threads the
      observable trace (log lines and collaborator calls, in order) and may
      raise; [try_catch] is Python's [try: ... except Exception as e: ...]. *)

From Stdlib Require Import ZArith Ascii String List Bool Lia.
From stdpp Require Import base option list strings pretty gmap fin_maps fin_sets.

Set Warnings "-register-all".

Local Open Scope string_scope.
Local Open Scope Z_scope.

(** ** Python strings *)

Module PyStr.

(** [c.isspace()] for a code point below 128; no character above 127
    counts as white space here. *)
Definition isspace (c : ascii) : bool :=
  let n := nat_of_ascii c in
  ((9 <=? n)%nat && (n <=? 13)%nat) || ((28 <=? n)%nat && (n <=? 32)%nat).

(** [c.upper()] for one character below 128: [a]..[z] move down by 32;
    a character above 127 is left as it is. *)
Definition upper_char (c : ascii) : ascii :=
  let n := nat_of_ascii c in
  if ((97 <=? n)%nat && (n <=? 122)%nat) then ascii_of_nat (n - 32) else c.

(** [s.upper()] *)
Fixpoint upper (s : string) : string :=
  match s with
  | EmptyString => EmptyString
  | String c s' => String (upper_char c) (upper s')
  end.

(** [s.lstrip()] *)
Fixpoint lstrip (s : string) : string :=
  match s with
  | EmptyString => EmptyString
  | String c s' => if isspace c then lstrip s' else s
  end.

(** [s.rstrip()] *)
Fixpoint rstrip (s : string) : string :=
  match s with
  | EmptyString => EmptyString
  | String c s' =>
      match rstrip s' with
      | EmptyString => if isspace c then EmptyString else String c EmptyString
      | r => String c r
      end
  end.

(** [s.strip()] removes white space at both ends. *)
Definition strip (s : string) : string := rstrip (lstrip s).

(** Truth value of a string: non-empty. *)
Definition truthy (s : string) : bool :=
  match s with EmptyString => false | String _ _ => true end.

(** The characters of a string, as Python iterates over it: one
    one-character string per position. *)
Fixpoint chars (s : string) : list string :=
  match s with
  | EmptyString => []
  | String c s' => String c EmptyString :: chars s'
  end.

(** A string has none of the letters [a]..[z]. *)
Fixpoint is_upper_form (s : string) : bool :=
  match s with
  | EmptyString => true
  | String c s' =>
      negb ((97 <=? nat_of_ascii c)%nat && (nat_of_ascii c <=? 122)%nat)
      && is_upper_form s'
  end.

(** [strip] leaves the string as it is. *)
Definition is_trimmed (s : string) : bool :=
  String.eqb (strip s) s.

End PyStr.

(** ** Request bodies: the value of [request.get_json()] *)

(** A parsed JSON document.  An object is kept as the list of its items in
    insertion order, keys distinct, as in the Python [dict] it is parsed
    into.  [JNum] is a Python [int]; [JFloat m e] is the [float] of value
    [m * 2^e]. *)
Inductive json : Type :=
| JNull
| JBool (b : bool)
| JNum (z : Z)
| JFloat (m e : Z)
| JStr (s : string)
| JList (items : list json)
| JObj (items : list (string * json)).

(** Exceptions, given by the class name and the text [str(e)] produces.
    These are the instances of [Exception], which is what the handlers'
    [except Exception] catches; [SystemExit] and [KeyboardInterrupt] are
    not among them. *)
Record exn : Type := Exn { exn_class : string; exn_str : string }.

Module Py.

(** [type(x).__name__] *)
Definition type_name (x : json) : string :=
  match x with
  | JNull => "NoneType"
  | JBool _ => "bool"
  | JNum _ => "int"
  | JFloat _ _ => "float"
  | JStr _ => "str"
  | JList _ => "list"
  | JObj _ => "dict"
  end.

Definition AttributeError (x : json) (attr : string) : exn :=
  Exn "AttributeError"
      ("'" +:+ type_name x +:+ "' object has no attribute '" +:+ attr +:+ "'").

Definition TypeError (msg : string) : exn := Exn "TypeError" msg.

(** [bool(x)], the test behind [if not x]. *)
Definition truthy (x : json) : bool :=
  match x with
  | JNull => false
  | JBool b => b
  | JNum z => negb (z =? 0)
  | JFloat m _ => negb (m =? 0)
  | JStr s => PyStr.truthy s
  | JList items => match items with [] => false | _ :: _ => true end
  | JObj items => match items with [] => false | _ :: _ => true end
  end.

(** Lookup in the items of a [dict]. *)
Fixpoint assoc (key : string) (items : list (string * json)) : option json :=
  match items with
  | [] => None
  | (k, v) :: rest => if String.eqb k key then Some v else assoc key rest
  end.

(** [x.get(key, default)]: only a [dict] has the method. *)
Definition get (x : json) (key : string) (default : json) : exn + json :=
  match x with
  | JObj items =>
      match assoc key items with
      | Some v => inr v
      | None => inr default
      end
  | _ => inl (AttributeError x "get")
  end.

(** [len(x)] *)
Definition len (x : json) : exn + Z :=
  match x with
  | JStr s => inr (Z.of_nat (String.length s))
  | JList items => inr (Z.of_nat (length items))
  | JObj items => inr (Z.of_nat (length items))
  | _ => inl (TypeError ("object of type '" +:+ type_name x +:+ "' has no len()"))
  end.

(** The elements [for ticker in x] visits: the items of a list, the
    characters of a string, the keys of a dict. *)
Definition iter (x : json) : exn + list json :=
  match x with
  | JStr s => inr (map JStr (PyStr.chars s))
  | JList items => inr items
  | JObj items => inr (map (fun kv => JStr (fst kv)) items)
  | _ => inl (TypeError ("'" +:+ type_name x +:+ "' object is not iterable"))
  end.

(** [x.strip()] and [x.upper()]: string methods. *)
Definition strip (x : json) : exn + string :=
  match x with
  | JStr s => inr (PyStr.strip s)
  | _ => inl (AttributeError x "strip")
  end.

Definition upper (x : json) : exn + string :=
  match x with
  | JStr s => inr (PyStr.upper s)
  | _ => inl (AttributeError x "upper")
  end.

End Py.

(** ** The ticker normalisation of [batch_analysis]

    [[ticker.upper().strip() for ticker in tickers if ticker.strip()]] *)

(** On the elements of any iterable: the first element without a [strip]
    method raises. *)
Fixpoint normalize_items (tickers : list json) : exn + list string :=
  match tickers with
  | [] => inr []
  | ticker :: rest =>
      match Py.strip ticker with
      | inl e => inl e
      | inr stripped =>
          if PyStr.truthy stripped then
            match Py.upper ticker with
            | inl e => inl e
            | inr up =>
                match normalize_items rest with
                | inl e => inl e
                | inr out => inr (PyStr.strip up :: out)
                end
            end
          else normalize_items rest
      end
  end.

(** The same comprehension on a list of strings, where nothing can raise. *)
Fixpoint normalize_tickers (tickers : list string) : list string :=
  match tickers with
  | [] => []
  | ticker :: rest =>
      if PyStr.truthy (PyStr.strip ticker)
      then PyStr.strip (PyStr.upper ticker) :: normalize_tickers rest
      else normalize_tickers rest
  end.

(** ** Responses, collaborators and the handler monad *)

Section Handlers.

(** What the collaborators hand back is embedded in the responses as it
    is; the handlers never look inside. [World] is whatever state the
    collaborators and the clock live in. *)
Context {Score Breakdown Headline World : Type}.

(** The values a handler passes to [jsonify]. *)
Inductive value : Type :=
| VStr (s : string)
| VInt (z : Z)
| VBool (b : bool)
| VScore (s : Score)
| VScores (m : gmap string Score)
| VBreakdown (b : Breakdown)
| VHeadlines (hs : list Headline)
| VDict (fields : list (string * value)).

(** A Flask return value: the body and the HTTP status. *)
Record response : Type := Response { body : value; status : Z }.

(** [jsonify(d)] with the default status, and [jsonify(d), code]. *)
Definition jsonify (d : value) : response := Response d 200.
Definition jsonify_with (d : value) (code : Z) : response := Response d code.

(** The collaborators imported at the top of [app.py], and the clock. *)
Record collaborators : Type := Collaborators {
  fetch_and_compute_credit_scores :
    list string -> World -> (exn + gmap string Score) * World;
  get_score_breakdown_data : World -> (exn + Breakdown) * World;
  top_headlines : string -> Z -> World -> (exn + list Headline) * World;
  (** [datetime.now().isoformat()] *)
  now_isoformat : World -> string * World
}.

(** What a request leaves behind, in order. *)
Inductive event : Type :=
| LogInfo (msg : string)
| LogError (msg : string)
| CallScores (tickers : list string)
| CallBreakdown
| CallHeadlines (ticker : string) (n : Z)
| ReadClock.

Record state : Type := State { trace : list event; world : World }.

Definition M (A : Type) : Type := state -> (exn + A) * state.

Definition ret {A} (a : A) : M A := fun st => (inr a, st).

Definition bind {A B} (c : M A) (k : A -> M B) : M B :=
  fun st =>
    match c st with
    | (inl e, st') => (inl e, st')
    | (inr a, st') => k a st'
    end.

(** A Python operation that returns or raises. *)
Definition lift {A} (r : exn + A) : M A := fun st => (r, st).

(** [try: body except Exception as e: handler(e)] *)
Definition try_catch {A} (body : M A) (handler : exn -> M A) : M A :=
  fun st =>
    match body st with
    | (inl e, st') => handler e st'
    | (inr a, st') => (inr a, st')
    end.

Definition emit (ev : event) : M unit :=
  fun st => (inr tt, State (trace st ++ [ev]) (world st)).

(** A call to a collaborator: recorded, then run on the world. *)
Definition call {A} (ev : event) (f : World -> (exn + A) * World) : M A :=
  fun st =>
    let (r, w) := f (world st) in
    (r, State (trace st ++ [ev]) w).

Definition logger_info (msg : string) : M unit := emit (LogInfo msg).
Definition logger_error (msg : string) : M unit := emit (LogError msg).

Definition datetime_now_isoformat (env : collaborators) : M string :=
  call ReadClock (fun w => let (t, w') := now_isoformat env w in (inr t, w')).

End Handlers.

Arguments value : clear implicits.
Arguments response : clear implicits.
Arguments collaborators : clear implicits.
Arguments state : clear implicits.
Arguments M : clear implicits.

Declare Scope handler_scope.
Delimit Scope handler_scope with handler.
Notation "'let*' x ':=' c 'in' k" := (bind c (fun x => k))
  (at level 10, x name, c at level 100, k at level 200) : handler_scope.

(** ** The handlers of [app.py] *)

Section Routes.

Context {Score Breakdown Headline World : Type}.
Variable env : collaborators Score Breakdown Headline World.

Local Open Scope handler_scope.

Abbreviation resp := (response Score Breakdown Headline).
Abbreviation handler := (M World resp).

Definition scores (tickers : list string) : M World (gmap string Score) :=
  call (CallScores tickers) (fetch_and_compute_credit_scores env tickers).

Definition breakdown : M World Breakdown :=
  call CallBreakdown (get_score_breakdown_data env).

Definition headlines (ticker : string) (n : Z) : M World (list Headline) :=
  call (CallHeadlines ticker n) (top_headlines env ticker n).

(** *** Error handlers registered with [app.errorhandler] *)

Definition not_found_error (error : exn) : resp :=
  jsonify_with
    (VDict [("error", VStr "Not Found");
            ("message", VStr "The requested resource was not found");
            ("status", VInt 404)])
    404.

Definition bad_request_error (error : exn) : resp :=
  jsonify_with
    (VDict [("error", VStr "Bad Request");
            ("message", VStr "Invalid request parameters");
            ("status", VInt 400)])
    400.

Definition internal_error (error : exn) : resp :=
  jsonify_with
    (VDict [("error", VStr "Internal Server Error");
            ("message", VStr "An unexpected error occurred");
            ("status", VInt 500)])
    500.

(** *** [GET /api/chart-data] *)

Definition chart_data : handler :=
  try_catch
    (let* data := breakdown in
     ret (jsonify (VBreakdown data)))
    (fun e =>
       let* _ := logger_error ("Error getting chart data: " +:+ exn_str e) in
       ret (jsonify_with (VDict [("error", VStr "Failed to load chart data")]) 500)).

(** *** [GET /api/company-analysis/<ticker>] *)

Definition company_analysis (ticker : string) : handler :=
  let ticker := PyStr.upper ticker in
  try_catch
    (let* _ := logger_info ("Analyzing ticker: " +:+ ticker) in
     let* credit_results := scores [ticker] in
     match credit_results !! ticker with
     | None =>
         ret (jsonify_with
                (VDict [("error",
                         VStr ("No financial data available for " +:+ ticker
                               +:+ ". Please check the ticker symbol."))])
                404)
     | Some ticker_scores =>
         let* breakdown_data := breakdown in
         let* timestamp := datetime_now_isoformat env in
         let response_data :=
           VDict [("ticker", VStr ticker);
                  ("credit_scores", VScore ticker_scores);
                  ("breakdown", VBreakdown breakdown_data);
                  ("success", VBool true);
                  ("timestamp", VStr timestamp)] in
         let* _ := logger_info ("Successfully analyzed " +:+ ticker) in
         ret (jsonify response_data)
     end)
    (fun e =>
       let* _ := logger_error ("Error analyzing " +:+ ticker +:+ ": " +:+ exn_str e) in
       ret (jsonify_with
              (VDict [("error",
                       VStr ("Failed to analyze " +:+ ticker +:+ ": " +:+ exn_str e))])
              500)).

(** *** [POST /api/batch-analysis]

    [data] is the value of [request.get_json()]. *)

Definition batch_analysis (data : json) : handler :=
  try_catch
    (if negb (Py.truthy data) then
       ret (jsonify_with (VDict [("error", VStr "No JSON data provided")]) 400)
     else
       let* tickers := lift (Py.get data "tickers" (JList [])) in
       if negb (Py.truthy tickers) then
         ret (jsonify_with (VDict [("error", VStr "No tickers provided")]) 400)
       else
         let* n := lift (Py.len tickers) in
         if 10 <? n then
           ret (jsonify_with (VDict [("error", VStr "Maximum 10 tickers per batch")]) 400)
         else
           let* items := lift (Py.iter tickers) in
           let* tickers := lift (normalize_items items) in
           match tickers with
           | [] =>
               ret (jsonify_with (VDict [("error", VStr "No valid tickers provided")]) 400)
           | _ :: _ =>
               let* credit_results := scores tickers in
               let* breakdown_data := breakdown in
               let* timestamp := datetime_now_isoformat env in
               ret (jsonify
                      (VDict [("results", VScores credit_results);
                              ("breakdown", VBreakdown breakdown_data);
                              ("processed_count", VInt (Z.of_nat (size credit_results)));
                              ("requested_count", VInt (Z.of_nat (length tickers)));
                              ("success", VBool true);
                              ("timestamp", VStr timestamp)]))
           end)
    (fun e =>
       let* _ := logger_error ("Error in batch analysis: " +:+ exn_str e) in
       ret (jsonify_with (VDict [("error", VStr "Batch analysis failed")]) 500)).

(** *** [GET /api/news/<ticker>]

    [count] is the value of the query parameter as
    [request.args.get('count', default=3, type=int)] sees it: [None] when
    the parameter is missing or is not an integer literal, in which case
    the default applies. *)

Definition get_news (ticker : string) (count : option Z) : handler :=
  let ticker := PyStr.upper ticker in
  try_catch
    (let n := match count with Some c => c | None => 3 end in
     let n := Z.min (Z.max n 1) 10 in
     let* _ := logger_info ("Fetching " +:+ pretty n +:+ " headlines for " +:+ ticker) in
     let* found := headlines ticker n in
     let* timestamp := datetime_now_isoformat env in
     ret (jsonify
            (VDict [("ticker", VStr ticker);
                    ("headlines", VHeadlines found);
                    ("count", VInt (Z.of_nat (length found)));
                    ("success", VBool true);
                    ("timestamp", VStr timestamp)])))
    (fun e =>
       let* _ := logger_error ("Error fetching news for " +:+ ticker +:+ ": " +:+ exn_str e) in
       ret (jsonify_with
              (VDict [("error",
                       VStr ("Failed to fetch news for " +:+ ticker +:+ ": " +:+ exn_str e))])
              500)).

(** *** [GET /api/company-analysis-full/<ticker>] *)

Definition company_analysis_full (ticker : string) : handler :=
  let ticker := PyStr.upper ticker in
  try_catch
    (let* _ := logger_info ("Full analysis for ticker: " +:+ ticker) in
     let* credit_results := scores [ticker] in
     match credit_results !! ticker with
     | None =>
         ret (jsonify_with
                (VDict [("error", VStr ("No financial data available for " +:+ ticker))])
                404)
     | Some ticker_scores =>
         let* breakdown_data := breakdown in
         let* found := headlines ticker 5 in
         let* timestamp := datetime_now_isoformat env in
         let response_data :=
           VDict [("ticker", VStr ticker);
                  ("credit_scores", VScore ticker_scores);
                  ("breakdown", VBreakdown breakdown_data);
                  ("news", VDict [("headlines", VHeadlines found);
                                  ("count", VInt (Z.of_nat (length found)))]);
                  ("success", VBool true);
                  ("timestamp", VStr timestamp)] in
         ret (jsonify response_data)
     end)
    (fun e =>
       let* _ := logger_error ("Error in full analysis for " +:+ ticker +:+ ": " +:+ exn_str e) in
       ret (jsonify_with
              (VDict [("error",
                       VStr ("Failed to analyze " +:+ ticker +:+ ": " +:+ exn_str e))])
              500)).

(** *** [GET /api/health] *)

Definition health_check : handler :=
  let* timestamp := datetime_now_isoformat env in
  ret (jsonify (VDict [("status", VStr "healthy");
                       ("timestamp", VStr timestamp);
                       ("version", VStr "1.0.0")])).

End Routes.

(** ** Routing *)

(** The requests to the JSON routes under [/api], with the part of the
    request each handler reads.  The route [/] serves the HTML template of
    the dashboard and is not among them. *)
Inductive request : Type :=
| GetChartData
| GetCompanyAnalysis (ticker : string)
| PostBatchAnalysis (data : json)
| GetNews (ticker : string) (count : option Z)
| GetCompanyAnalysisFull (ticker : string)
| GetHealth.

Definition serve {Score Breakdown Headline World : Type}
    (env : collaborators Score Breakdown Headline World) (req : request)
    : M World (response Score Breakdown Headline) :=
  match req with
  | GetChartData => chart_data env
  | GetCompanyAnalysis ticker => company_analysis env ticker
  | PostBatchAnalysis data => batch_analysis env data
  | GetNews ticker count => get_news env ticker count
  | GetCompanyAnalysisFull ticker => company_analysis_full env ticker
  | GetHealth => health_check env
  end.

(** A batch body of the documented shape, [{"tickers": [s1, ..., sn]}]. *)
Definition batch_request (raw : list string) : json :=
  JObj [("tickers", JList (map JStr raw))].

(** ** Reading response bodies *)

Section Bodies.

Context {Score Breakdown Headline : Type}.
Abbreviation val := (value Score Breakdown Headline).

Fixpoint assoc_field (key : string) (fields : list (string * val)) : option val :=
  match fields with
  | [] => None
  | (k, v) :: rest => if String.eqb k key then Some v else assoc_field key rest
  end.

(** The member [key] of a body, when the body is an object that has it. *)
Definition field (key : string) (b : val) : option val :=
  match b with
  | VDict fields => assoc_field key fields
  | _ => None
  end.

Definition keys (b : val) : list string :=
  match b with
  | VDict fields => map fst fields
  | _ => []
  end.

Definition mem (key : string) (l : list string) : bool :=
  existsb (String.eqb key) l.

(** The body has an [error] member. *)
Definition has_error (b : val) : bool :=
  match field "error" b with Some _ => true | None => false end.

(** The body says [success: true]. *)
Definition says_success (b : val) : bool :=
  match field "success" b with Some (VBool true) => true | _ => false end.

(** The members that carry a success payload: everything besides the
    error members and the envelope's flag and time stamp. *)
Definition payload_keys (b : val) : list string :=
  List.filter
    (fun k => negb (mem k ["error"; "message"; "status"; "success"; "timestamp"]))
    (keys b).

Definition has_payload (b : val) : bool :=
  match payload_keys b with [] => false | _ :: _ => true end.

(** Envelope exclusivity: a payload with [success: true] and no error, or
    an error and no payload. *)
Definition exclusive (b : val) : bool :=
  (says_success b && has_payload b && negb (has_error b))
  || (has_error b && negb (has_payload b)).

(** The body repeats the HTTP status of its response. *)
Definition mirrors_status (r : response Score Breakdown Headline) : bool :=
  match field "status" (body r) with
  | Some (VInt z) => z =? status r
  | _ => false
  end.

Definition is_error_status (code : Z) : bool :=
  (code =? 400) || (code =? 404) || (code =? 500).

End Bodies.

(** ** Normalisation as the specification words it

    Trim every entry, drop the entries that are empty after trimming,
    uppercase the survivors, and remove duplicates keeping the first
    occurrence of each. *)

Fixpoint dedup_from (seen : list string) (l : list string) : list string :=
  match l with
  | [] => []
  | x :: rest =>
      if existsb (String.eqb x) seen then dedup_from seen rest
      else x :: dedup_from (x :: seen) rest
  end.

Definition dedup (l : list string) : list string := dedup_from [] l.

Definition trim_drop_upper (raw : list string) : list string :=
  map PyStr.upper (List.filter PyStr.truthy (map PyStr.strip raw)).

Definition Normalize_spec (raw : list string) : list string :=
  dedup (trim_drop_upper raw).

(** ** Concrete collaborators

    Stateless collaborators over [World := unit], with scores and the
    breakdown as numbers and headlines as strings; used to run the
    handlers on closed inputs. *)

Definition stub
    (score_fn : list string -> exn + gmap string nat)
    (breakdown_v : exn + nat)
    (news_fn : string -> Z -> exn + list string)
    : collaborators nat nat string unit :=
  {| fetch_and_compute_credit_scores := fun tickers w => (score_fn tickers, w);
     get_score_breakdown_data := fun w => (breakdown_v, w);
     top_headlines := fun ticker n w => (news_fn ticker n, w);
     now_isoformat := fun w => ("2025-01-01T00:00:00", w) |}.

(** A scoring collaborator that knows a fixed table and answers for the
    requested tickers it knows. *)
Definition table_scores (table : list (string * nat)) (tickers : list string)
    : exn + gmap string nat :=
  inr (list_to_map
         (List.filter (fun kv => existsb (String.eqb (fst kv)) tickers) table)).

Definition start : state unit := State [] tt.

(** A market that knows two tickers, serves two headlines whatever is asked
    for, and never fails. *)
Definition market : collaborators nat nat string unit :=
  stub (table_scores [("AAPL", 710%nat); ("MSFT", 655%nat)])
       (inr 4%nat)
       (fun _ _ => inr ["Earnings beat estimates"; "Rating unchanged"]).


(** ** Reading traces and request bodies *)

(** Calls to the three collaborators, as opposed to log lines and clock
    reads. *)
Definition is_call (ev : event) : bool :=
  match ev with
  | CallScores _ | CallBreakdown | CallHeadlines _ _ => true
  | _ => false
  end.

Definition is_scores_call (ev : event) : bool :=
  match ev with CallScores _ => true | _ => false end.

Definition is_breakdown_call (ev : event) : bool :=
  match ev with CallBreakdown => true | _ => false end.

Definition is_headlines_call (ev : event) : bool :=
  match ev with CallHeadlines _ _ => true | _ => false end.

Definition is_clock_read (ev : event) : bool :=
  match ev with ReadClock => true | _ => false end.

Definition is_error_log (ev : event) : bool :=
  match ev with LogError _ => true | _ => false end.

(** How many of the events satisfy [p]. *)
Definition count_events (p : event -> bool) (evs : list event) : nat :=
  length (List.filter p evs).

(** A JSON string, the only kind of value with [strip] and [upper]. *)
Definition is_string (x : json) : bool :=
  match x with JStr _ => true | _ => false end.

(** A JSON object, the only kind of value with [get]. *)
Definition is_dict (x : json) : bool :=
  match x with JObj _ => true | _ => false end.

(** An entry that is empty once trimmed. *)
Definition blank (s : string) : bool := negb (PyStr.truthy (PyStr.strip s)).

(** A market whose news collaborator raises [e]. *)
Definition newsless (e : exn) : collaborators nat nat string unit :=
  stub (table_scores [("AAPL", 710%nat); ("MSFT", 655%nat)])
       (inr 4%nat)
       (fun _ _ => inl e).

(** A market whose breakdown collaborator raises [e]. *)
Definition chartless (e : exn) : collaborators nat nat string unit :=
  stub (table_scores [("AAPL", 710%nat); ("MSFT", 655%nat)])
       (inl e)
       (fun _ _ => inr []).

(** * Properties *)

(** ** Running examples *)

Example upper_ex : PyStr.upper "aapl" = "AAPL".
Proof. reflexivity. Qed.

Example strip_ex : PyStr.strip "  msft  " = "msft".
Proof. reflexivity. Qed.

Example strip_inner_ex : PyStr.strip " brk b " = "brk b".
Proof. reflexivity. Qed.

Example strip_blank_ex : PyStr.strip "   " = "".
Proof. reflexivity. Qed.

Example normalize_ex :
  normalize_tickers [" aapl "; "   "; "Msft"; ""] = ["AAPL"; "MSFT"].
Proof. reflexivity. Qed.

Example normalize_items_raises :
  normalize_items [JStr "aapl"; JNum 7; JStr "msft"]
  = inl (Exn "AttributeError" "'int' object has no attribute 'strip'").
Proof. reflexivity. Qed.

(** ** [upper] and [strip] *)

Module PyStrFacts.
Import PyStr.

Ltac by_cases_on_char c :=
  destruct c as [[] [] [] [] [] [] [] []]; reflexivity.

Lemma isspace_upper_char c : isspace (upper_char c) = isspace c.
Proof. by_cases_on_char c. Qed.

Lemma upper_char_idem c : upper_char (upper_char c) = upper_char c.
Proof. by_cases_on_char c. Qed.

Lemma upper_char_not_lower c :
  ((97 <=? nat_of_ascii (upper_char c))%nat
   && (nat_of_ascii (upper_char c) <=? 122)%nat) = false.
Proof. by_cases_on_char c. Qed.

Lemma upper_idem s : upper (upper s) = upper s.
Proof.
  induction s as [|c s IH]; simpl; [reflexivity|].
  now rewrite upper_char_idem, IH.
Qed.

Lemma upper_is_upper_form s : is_upper_form (upper s) = true.
Proof.
  induction s as [|c s IH]; [reflexivity|].
  cbn [upper is_upper_form]. now rewrite upper_char_not_lower, IH.
Qed.

Lemma truthy_upper s : truthy (upper s) = truthy s.
Proof. now destruct s. Qed.

Lemma lstrip_upper s : lstrip (upper s) = upper (lstrip s).
Proof.
  induction s as [|c s IH]; simpl; [reflexivity|].
  rewrite isspace_upper_char. now destruct (isspace c).
Qed.

Lemma rstrip_upper s : rstrip (upper s) = upper (rstrip s).
Proof.
  induction s as [|c s IH]; simpl; [reflexivity|].
  rewrite IH, isspace_upper_char.
  destruct (rstrip s); simpl; [now destruct (isspace c)|reflexivity].
Qed.

(** Uppercasing and trimming commute. *)
Lemma strip_upper s : strip (upper s) = upper (strip s).
Proof. unfold strip. now rewrite lstrip_upper, rstrip_upper. Qed.

Lemma lstrip_idem s : lstrip (lstrip s) = lstrip s.
Proof.
  induction s as [|c s IH]; simpl; [reflexivity|].
  destruct (isspace c) eqn:E; [exact IH|]. simpl. now rewrite E.
Qed.

Lemma rstrip_idem s : rstrip (rstrip s) = rstrip s.
Proof.
  induction s as [|c s IH]; simpl; [reflexivity|].
  destruct (rstrip s) as [|d r] eqn:E.
  - destruct (isspace c) eqn:Ec; simpl; [reflexivity|]. now rewrite Ec.
  - change (rstrip (String c (String d r))) with
      (match rstrip (String d r) with
       | EmptyString => if isspace c then EmptyString else String c EmptyString
       | String a b => String c (String a b)
       end).
    now rewrite IH.
Qed.

(** Trimming on the right leaves a trimmed left end alone. *)
Lemma lstrip_rstrip s : lstrip s = s -> lstrip (rstrip s) = rstrip s.
Proof.
  destruct s as [|c s]; [reflexivity|]. simpl.
  destruct (isspace c) eqn:Ec.
  - intros H. exfalso.
    assert (Hlen : (String.length (lstrip s) <= String.length s)%nat).
    { clear. induction s as [|d s IH]; simpl; [lia|].
      destruct (isspace d); simpl; lia. }
    rewrite H in Hlen. simpl in Hlen. lia.
  - intros _. destruct (rstrip s); simpl; now rewrite Ec.
Qed.

Lemma strip_idem s : strip (strip s) = strip s.
Proof.
  unfold strip.
  rewrite (lstrip_rstrip (lstrip s)) by apply lstrip_idem.
  apply rstrip_idem.
Qed.

Lemma strip_is_trimmed s : is_trimmed (strip s) = true.
Proof. unfold is_trimmed. rewrite strip_idem. apply String.eqb_refl. Qed.

End PyStrFacts.

(** ** The normalisation of batch tickers *)

Section Normalisation.
Import PyStr PyStrFacts.

(** On a list of strings the comprehension never raises and is
    [normalize_tickers]. *)
Lemma normalize_items_strings raw :
  normalize_items (map JStr raw) = inr (normalize_tickers raw).
Proof.
  induction raw as [|t raw IH]; [reflexivity|].
  cbn [map normalize_items normalize_tickers Py.strip Py.upper].
  rewrite IH. now destruct (truthy (strip t)).
Qed.

(** The comprehension uppercases before it trims; the result is the same
    as trimming, dropping the blanks and uppercasing what is left. *)
Lemma normalize_tickers_pipeline raw :
  normalize_tickers raw = trim_drop_upper raw.
Proof.
  unfold trim_drop_upper.
  induction raw as [|t raw IH]; [reflexivity|].
  cbn [normalize_tickers map List.filter].
  rewrite IH, strip_upper. now destruct (truthy (strip t)).
Qed.

Lemma normalize_tickers_length raw :
  (length (normalize_tickers raw) <= length raw)%nat.
Proof.
  induction raw as [|t raw IH]; cbn [normalize_tickers length]; [lia|].
  destruct (truthy (strip t)); cbn [length]; lia.
Qed.

(** Every normalised ticker is non-empty, trimmed and free of lower-case
    letters. *)
Lemma normalize_tickers_canonical raw :
  Forall (fun t => truthy t = true /\ is_trimmed t = true /\ is_upper_form t = true)
         (normalize_tickers raw).
Proof.
  induction raw as [|t raw IH]; cbn [normalize_tickers]; [constructor|].
  destruct (truthy (strip t)) eqn:E; [|exact IH].
  constructor; [|exact IH]. repeat split.
  - now rewrite strip_upper, truthy_upper.
  - apply strip_is_trimmed.
  - rewrite strip_upper. apply upper_is_upper_form.
Qed.

(** A canonical ticker is kept as it is. *)
Lemma normalize_tickers_fixed l :
  Forall (fun t => truthy t = true /\ is_trimmed t = true /\ is_upper_form t = true) l ->
  normalize_tickers l = l.
Proof.
  induction 1 as [|t l (Hne & Htrim & Hup) _ IH]; [reflexivity|].
  cbn [normalize_tickers].
  unfold is_trimmed in Htrim. apply String.eqb_eq in Htrim.
  assert (Hupper : upper t = t).
  { clear -Hup. induction t as [|c t IH]; [reflexivity|].
    cbn [is_upper_form] in Hup. apply andb_true_iff in Hup as [Hc Ht].
    cbn [upper]. rewrite (IH Ht). f_equal.
    unfold upper_char. apply negb_true_iff in Hc. now rewrite Hc. }
  rewrite Hupper, Htrim, Hne, IH. reflexivity.
Qed.

(** Duplicates survive: as many tickers come out as there are non-blank
    entries. *)
Lemma normalize_tickers_count raw :
  length (normalize_tickers raw)
  = length (List.filter (fun t => truthy (strip t)) raw).
Proof.
  induction raw as [|t raw IH]; [reflexivity|].
  cbn [normalize_tickers List.filter].
  destruct (truthy (strip t)); cbn [length]; now rewrite IH.
Qed.

End Normalisation.

(** C2, as the code has it.  The comprehension of [batch_analysis] trims
    every entry, drops the entries that are blank, and uppercases the rest,
    keeping the order of the request; it removes no duplicate, so
    [["aapl","AAPL","msft"]] becomes [["AAPL","AAPL","MSFT"]]. *)
Theorem normalize_trims_drops_uppercases (raw : list string) :
  normalize_items (map JStr raw) = inr (normalize_tickers raw)
  /\ normalize_tickers raw
     = map PyStr.upper (List.filter PyStr.truthy (map PyStr.strip raw))
  /\ length (normalize_tickers raw)
     = length (List.filter (fun t => PyStr.truthy (PyStr.strip t)) raw)
  /\ normalize_tickers ["aapl"; "AAPL"; "msft"] = ["AAPL"; "AAPL"; "MSFT"].
Proof.
  split; [apply normalize_items_strings|].
  split; [apply normalize_tickers_pipeline|].
  split; [apply normalize_tickers_count|reflexivity].
Qed.

(** C2 fails as stated: on [["aapl","AAPL","msft"]] the code keeps both
    copies of [AAPL], where the specified normaliser yields
    [["AAPL","MSFT"]]. *)
Lemma normalize_keeps_duplicates :
  Normalize_spec ["aapl"; "AAPL"; "msft"] = ["AAPL"; "MSFT"]
  /\ normalize_tickers ["aapl"; "AAPL"; "msft"] <> ["AAPL"; "MSFT"].
Proof. split; [reflexivity|discriminate]. Qed.

(** C9.  Normalising an already normalised list of tickers changes
    nothing. *)
Theorem normalize_idempotent (raw : list string) :
  normalize_tickers (normalize_tickers raw) = normalize_tickers raw.
Proof. apply normalize_tickers_fixed, normalize_tickers_canonical. Qed.

(** ** Running the handlers *)

(** Unfold a handler down to the collaborators' answers. *)
Ltac unfold_handlers :=
  unfold serve, chart_data, company_analysis, batch_analysis, get_news,
    company_analysis_full, health_check, scores, breakdown, headlines,
    datetime_now_isoformat, logger_info, logger_error,
    try_catch, bind, lift, ret, call, emit, jsonify, jsonify_with in *;
  cbn [world trace] in *.

(** Case analysis on whatever the run in [H] branches on next. *)
Ltac next_case H :=
  match type of H with
  | context [match ?x with _ => _ end] =>
      lazymatch x with
      | context [match _ with _ => _ end] => fail
      | _ => destruct x eqn:?
      end
  end;
  cbn [world trace fst snd] in H.

Ltac finish_run H :=
  try discriminate H;
  try (injection H as <- <-; cbn [status body world trace] in *).

Ltac run_cases H := unfold_handlers; repeat next_case H; finish_run H.

Section SetFacts.

Lemma size_list_to_set_le (l : list string) :
  (size (list_to_set l : gset string) <= length l)%nat.
Proof.
  induction l as [|x l IH]; cbn [list_to_set length].
  - now rewrite size_empty.
  - rewrite size_union_alt, size_singleton.
    assert (Hsub : (list_to_set l : gset string) ∖ {[x]} ⊆ list_to_set l)
      by apply subseteq_difference_l, reflexivity.
    apply subseteq_size in Hsub. lia.
Qed.

(** A mapping whose keys are among the requested tickers and that misses
    one of them has fewer entries than tickers were requested. *)
Lemma partial_coverage {A} (m : gmap string A) (tickers : list string) (t : string) :
  dom m ⊆ list_to_set tickers ->
  t ∈ tickers -> m !! t = None ->
  (size m < length tickers)%nat.
Proof.
  intros Hsub Hin Hnone.
  rewrite <- (size_dom (D := gset string)).
  apply Nat.lt_le_trans with (size (list_to_set tickers : gset string));
    [|apply size_list_to_set_le].
  apply subset_size. split; [exact Hsub|].
  intros Hback.
  assert (Ht : t ∈ dom m) by (apply Hback, elem_of_list_to_set, Hin).
  apply elem_of_dom in Ht as [v Hv]. congruence.
Qed.

End SetFacts.

Section HandlerFacts.

Context {Score Breakdown Headline World : Type}.
Variable env : collaborators Score Breakdown Headline World.
Abbreviation resp := (response Score Breakdown Headline).

(** C1.  A body whose [tickers] member is a list of more than ten
    entries is answered 400 [Maximum 10 tickers per batch], whatever the
    entries are; the state is the one the request found, so nothing was
    logged and no collaborator was called. *)
Theorem batch_cap_on_raw_length
    (fields : list (string * json)) (items : list json) (st : state World) :
  Py.assoc "tickers" fields = Some (JList items) ->
  (10 < length items)%nat ->
  batch_analysis env (JObj fields) st
  = (inr (Response (VDict [("error", VStr "Maximum 10 tickers per batch")]) 400), st).
Proof.
  intros Hget Hlen. unfold_handlers.
  destruct fields as [|kv fields]; [discriminate|].
  cbn [Py.truthy negb Py.get]. rewrite Hget.
  destruct items as [|i items]; [cbn [length] in Hlen; lia|].
  cbn [Py.truthy negb Py.len].
  destruct (10 <? Z.of_nat (length (i :: items))) eqn:E; [reflexivity|].
  apply Z.ltb_ge in E. lia.
Qed.

(** What a 200 answer of [batch_analysis] tells about the run. *)
Lemma batch_success_inv (data : json) (st st' : state World) (r : resp) :
  batch_analysis env data st = (inr r, st') ->
  status r = 200 ->
  exists (given : json) (items : list json) (tickers : list string)
         (credit_results : gmap string Score) (w : World),
    Py.get data "tickers" (JList []) = inr given
    /\ Py.iter given = inr items
    /\ normalize_items items = inr tickers
    /\ fetch_and_compute_credit_scores env tickers (world st) = (inr credit_results, w)
    /\ trace st' = (trace st ++ [CallScores tickers; CallBreakdown; ReadClock])%list
    /\ keys (body r)
       = ["results"; "breakdown"; "processed_count"; "requested_count";
          "success"; "timestamp"]
    /\ field "results" (body r) = Some (VScores credit_results)
    /\ field "processed_count" (body r)
       = Some (VInt (Z.of_nat (size credit_results)))
    /\ field "requested_count" (body r) = Some (VInt (Z.of_nat (length tickers))).
Proof.
  intros Hrun Hok. run_cases Hrun; try discriminate Hok.
  eexists _, _, _, _, _.
  repeat (split; [try eassumption; try reflexivity|]);
    [now rewrite <- !app_assoc|reflexivity].
Qed.

(** C3.  A 200 answer of [batch_analysis] carries the mapping the
    scoring collaborator returned for the normalised tickers, its number
    of keys as [processed_count], the number of normalised tickers as
    [requested_count], and no error; when the mapping has keys only among
    the requested tickers and misses one of them, [processed_count] is
    smaller than [requested_count]. *)
Theorem batch_counts (data : json) (st st' : state World) (r : resp) :
  batch_analysis env data st = (inr r, st') ->
  status r = 200 ->
  exists (given : json) (items : list json) (tickers : list string)
         (credit_results : gmap string Score) (w : World),
    Py.get data "tickers" (JList []) = inr given
    /\ Py.iter given = inr items
    /\ normalize_items items = inr tickers
    /\ fetch_and_compute_credit_scores env tickers (world st) = (inr credit_results, w)
    /\ trace st' = (trace st ++ [CallScores tickers; CallBreakdown; ReadClock])%list
    /\ field "results" (body r) = Some (VScores credit_results)
    /\ field "processed_count" (body r)
       = Some (VInt (Z.of_nat (size credit_results)))
    /\ field "requested_count" (body r) = Some (VInt (Z.of_nat (length tickers)))
    /\ has_error (body r) = false
    /\ (dom credit_results ⊆ list_to_set tickers ->
        forall t, t ∈ tickers -> credit_results !! t = None ->
        (size credit_results < length tickers)%nat).
Proof.
  intros Hrun Hok.
  destruct (batch_success_inv _ _ _ _ Hrun Hok)
    as (given & items & tickers & m & w & Hg & Hi & Hn & Hf & Ht & Hk & Hr & Hp & Hq).
  exists given, items, tickers, m, w.
  repeat (split; [assumption|]). split.
  - unfold has_error. destruct (body r) as [| | | | | | |fields]; try reflexivity.
    cbn [keys] in Hk. cbn [field].
    do 7 (destruct fields as [|[? ?] fields]; try discriminate Hk).
    cbn [map fst] in Hk. injection Hk as -> -> -> -> -> ->. reflexivity.
  - intros Hsub t Hin Hnone. eapply partial_coverage; eassumption.
Qed.

(** C4.  When the scoring collaborator returns a mapping without the
    uppercased ticker, the single and the full analysis both answer 404
    with a body that holds an error message and nothing else; no 200 is
    returned. *)
Theorem absent_ticker_is_not_found
    (ticker : string) (st : state World) (m : gmap string Score) (w : World) :
  fetch_and_compute_credit_scores env [PyStr.upper ticker] (world st) = (inr m, w) ->
  m !! PyStr.upper ticker = None ->
  company_analysis env ticker st
  = (inr (Response
            (VDict [("error",
                     VStr ("No financial data available for " +:+ PyStr.upper ticker
                           +:+ ". Please check the ticker symbol."))])
            404),
     State (trace st ++ [LogInfo ("Analyzing ticker: " +:+ PyStr.upper ticker);
                         CallScores [PyStr.upper ticker]])%list w)
  /\ company_analysis_full env ticker st
     = (inr (Response
               (VDict [("error",
                        VStr ("No financial data available for " +:+ PyStr.upper ticker))])
               404),
        State (trace st ++ [LogInfo ("Full analysis for ticker: " +:+ PyStr.upper ticker);
                            CallScores [PyStr.upper ticker]])%list w).
Proof.
  intros Hfetch Hnone. unfold_handlers.
  rewrite Hfetch, Hnone, <- !app_assoc. split; reflexivity.
Qed.

(** A 200 answer of the single or the full analysis carries the score
    the collaborator returned for the uppercased ticker. *)
Lemma success_carries_scores (ticker : string) (st st' : state World) (r : resp) :
  company_analysis env ticker st = (inr r, st')
  \/ company_analysis_full env ticker st = (inr r, st') ->
  status r = 200 ->
  exists (m : gmap string Score) (w : World) (sc : Score),
    fetch_and_compute_credit_scores env [PyStr.upper ticker] (world st) = (inr m, w)
    /\ m !! PyStr.upper ticker = Some sc
    /\ field "credit_scores" (body r) = Some (VScore sc).
Proof.
  intros [Hrun|Hrun] Hok; run_cases Hrun; try discriminate Hok;
    eexists _, _, _; repeat split; eassumption || reflexivity.
Qed.

(** C5.  [get_news] calls the news collaborator with the requested count
    brought into 1..10 (3 when no count was given): above 10 it is 10,
    below 1 it is 1.  The handler answers 200 when the collaborator
    returns and 500 when the collaborator raises; no count is refused. *)
Theorem news_count_clamped (ticker : string) (count : option Z) (st : state World) :
  let requested := match count with Some c => c | None => 3 end in
  let n := if 10 <? requested then 10 else if requested <? 1 then 1 else requested in
  1 <= n <= 10
  /\ exists (r : resp) (st' : state World) (rest : list event),
       get_news env ticker count st = (inr r, st')
       /\ trace st'
          = (trace st
             ++ LogInfo ("Fetching " +:+ pretty n +:+ " headlines for "
                         +:+ PyStr.upper ticker)
             :: CallHeadlines (PyStr.upper ticker) n :: rest)%list
       /\ ((status r = 200 /\ rest = [ReadClock]
            /\ exists hs w, top_headlines env (PyStr.upper ticker) n (world st) = (inr hs, w))
           \/ (status r = 500
               /\ exists e w,
                    top_headlines env (PyStr.upper ticker) n (world st) = (inl e, w)
                    /\ rest = [LogError ("Error fetching news for " +:+ PyStr.upper ticker
                                         +:+ ": " +:+ exn_str e)])).
Proof.
  intros requested n.
  assert (Hn : Z.min (Z.max requested 1) 10 = n).
  { subst n. destruct (10 <? requested) eqn:E1; [apply Z.ltb_lt in E1; lia|].
    apply Z.ltb_ge in E1.
    destruct (requested <? 1) eqn:E2; [apply Z.ltb_lt in E2|apply Z.ltb_ge in E2]; lia. }
  split; [lia|].
  unfold_handlers. fold requested. rewrite Hn.
  destruct (top_headlines env (PyStr.upper ticker) n (world st)) as [[e|hs] w] eqn:Hcall;
    cbn [world trace].
  - eexists _, _, _. split; [reflexivity|]. cbn [trace status].
    split; [rewrite <- !app_assoc; reflexivity|].
    right. split; [reflexivity|]. now exists e, w.
  - destruct (now_isoformat env w) as [t w'] eqn:Hnow.
    eexists _, _, _. split; [reflexivity|]. cbn [trace status].
    split; [rewrite <- !app_assoc; reflexivity|].
    left. split; [reflexivity|]. split; [reflexivity|]. now exists hs, w.
Qed.

(** C10.  In a 200 answer of [get_news] the member [headlines] is the
    list the news collaborator returned and [count] is its length. *)
Theorem news_count_is_headline_count
    (ticker : string) (count : option Z) (st st' : state World) (r : resp) :
  get_news env ticker count st = (inr r, st') ->
  status r = 200 ->
  exists (hs : list Headline) (w : World),
    top_headlines env (PyStr.upper ticker)
      (Z.min (Z.max (match count with Some c => c | None => 3 end) 1) 10) (world st)
    = (inr hs, w)
    /\ field "headlines" (body r) = Some (VHeadlines hs)
    /\ field "count" (body r) = Some (VInt (Z.of_nat (length hs))).
Proof.
  intros Hrun Hok. unfold_handlers.
  destruct (top_headlines env _ _ (world st)) as [[e|hs] w] eqn:Hcall;
    cbn [world trace] in Hrun.
  - injection Hrun as <- <-. discriminate Hok.
  - destruct (now_isoformat env w) as [t w'].
    injection Hrun as <- <-. exists hs, w. repeat split; reflexivity.
Qed.



(** Two 500 answers of the batch analysis, or of the chart data, have the
    same body, whatever was raised in either run. *)
Lemma fixed_failure_bodies
    (req1 req2 : request) (st1 st1' st2 st2' : state World) (r1 r2 : resp) :
  serve env req1 st1 = (inr r1, st1') ->
  serve env req2 st2 = (inr r2, st2') ->
  status r1 = 500 -> status r2 = 500 ->
  match req1, req2 with
  | PostBatchAnalysis _, PostBatchAnalysis _ | GetChartData, GetChartData =>
      body r1 = body r2
  | _, _ => True
  end.
Proof.
  intros H1 H2 F1 F2.
  destruct req1, req2; try exact I.
  - run_cases H1; try discriminate F1; run_cases H2; try discriminate F2;
      reflexivity.
  - run_cases H1; try discriminate F1; run_cases H2; try discriminate F2;
      reflexivity.
Qed.

(** C7, as the code has it.  Every 400, 404 or 500 answer of a route has
    a body that is an object with the single member [error], a message;
    the status is not repeated in it.  The bodies of the three registered
    error handlers carry [error], [message] and the status. *)
Theorem error_bodies (req : request) (st st' : state World) (r : resp) :
  serve env req st = (inr r, st') ->
  is_error_status (status r) = true ->
  (exists msg : string, body r = VDict [("error", VStr msg)])
  /\ mirrors_status r = false
  /\ forall (error : exn) (h : exn -> resp),
       In h [not_found_error; bad_request_error; internal_error] ->
       mirrors_status (h error) = true
       /\ is_error_status (status (h error)) = true
       /\ (exists e m : string,
             field "error" (body (h error)) = Some (VStr e)
             /\ field "message" (body (h error)) = Some (VStr m)).
Proof.
  intros Hrun Herr. split; [|split].
  - destruct req; run_cases Hrun; try discriminate Herr; eexists; reflexivity.
  - destruct req; run_cases Hrun; try discriminate Herr; reflexivity.
  - intros error h [<-|[<-|[<-|[]]]]; (split; [reflexivity|]);
      (split; [reflexivity|]); eexists _, _; split; reflexivity.
Qed.

(** C8, as the code has it.  Every body of the single analysis, the
    batch analysis, the news and the full analysis is exclusive.  On 200
    it holds the payload members of its route, [success: true] and the
    time stamp, and no error; on any other status it holds [error] and
    nothing else, so neither payload nor success flag.  The chart data
    answer on 200 is the breakdown itself and on 500 an error alone, and
    the health answer is an object with neither a success flag nor an
    error. *)
Theorem envelope_exclusive (req : request) (st st' : state World) (r : resp) :
  serve env req st = (inr r, st') ->
  match req with
  | GetHealth =>
      status r = 200
      /\ keys (body r) = ["status"; "timestamp"; "version"]
      /\ says_success (body r) = false
      /\ has_error (body r) = false
  | GetChartData =>
      (status r = 200
       /\ exists b,
            get_score_breakdown_data env (world st) = (inr b, world st')
            /\ body r = VBreakdown b)
      \/ (status r = 500
          /\ keys (body r) = ["error"]
          /\ exclusive (body r) = true)
  | GetCompanyAnalysis _ | PostBatchAnalysis _ | GetNews _ _
  | GetCompanyAnalysisFull _ =>
      exclusive (body r) = true
      /\ ((status r = 200
           /\ says_success (body r) = true
           /\ has_payload (body r) = true
           /\ has_error (body r) = false
           /\ keys (body r)
              = match req with
                | GetCompanyAnalysis _ =>
                    ["ticker"; "credit_scores"; "breakdown"; "success"; "timestamp"]
                | PostBatchAnalysis _ =>
                    ["results"; "breakdown"; "processed_count"; "requested_count";
                     "success"; "timestamp"]
                | GetNews _ _ =>
                    ["ticker"; "headlines"; "count"; "success"; "timestamp"]
                | _ =>
                    ["ticker"; "credit_scores"; "breakdown"; "news"; "success";
                     "timestamp"]
                end)
          \/ (status r <> 200
              /\ has_error (body r) = true
              /\ has_payload (body r) = false
              /\ says_success (body r) = false
              /\ keys (body r) = ["error"]))
  end.
Proof.
  intros Hrun.
  destruct req; run_cases Hrun;
    first [ now (left; split; [reflexivity|eexists; split; reflexivity])
          | now (right; repeat split)
          | now (split; [reflexivity|left; repeat split])
          | now (split; [reflexivity|right; repeat split; discriminate])
          | now (repeat split) ].
Qed.

(** On a body of the documented shape, the tickers sent to the scoring
    collaborator are [normalize_tickers] of the raw list. *)
Lemma batch_requests_normalized
    (raw : list string) (st st' : state World) (r : resp) :
  batch_analysis env (batch_request raw) st = (inr r, st') ->
  status r = 200 ->
  trace st'
  = (trace st ++ [CallScores (normalize_tickers raw); CallBreakdown; ReadClock])%list
  /\ field "requested_count" (body r)
     = Some (VInt (Z.of_nat (length (normalize_tickers raw)))).
Proof.
  intros Hrun Hok.
  destruct (batch_success_inv _ _ _ _ Hrun Hok)
    as (given & items & tickers & m & w & Hg & Hi & Hn & _ & Ht & _ & _ & _ & Hq).
  cbn in Hg. injection Hg as <-. cbn in Hi. injection Hi as <-.
  rewrite normalize_items_strings in Hn. injection Hn as <-.
  now split.
Qed.

(** Sending the normalised tickers of an accepted request again is
    answered exactly as the request itself. *)
Lemma batch_analysis_normalized (raw : list string) (st : state World) :
  (length raw <= 10)%nat ->
  normalize_tickers raw <> [] ->
  batch_analysis env (batch_request (normalize_tickers raw)) st
  = batch_analysis env (batch_request raw) st.
Proof.
  intros Hlen Hne.
  pose proof (normalize_tickers_length raw) as Hshort.
  assert (Hraw : raw <> []) by (intros ->; now apply Hne).
  unfold batch_analysis, batch_request, try_catch, bind, lift.
  cbn [Py.truthy negb Py.get Py.assoc String.eqb Ascii.eqb Bool.eqb].
  destruct (normalize_tickers raw) as [|t ts] eqn:Hnorm; [congruence|].
  destruct raw as [|x raw]; [congruence|].
  cbn [map Py.truthy negb Py.len Py.iter].
  rewrite <- !(map_cons JStr), !length_map.
  destruct (10 <? Z.of_nat (length (t :: ts))) eqn:E1;
    [apply Z.ltb_lt in E1; lia|].
  destruct (10 <? Z.of_nat (length (x :: raw))) eqn:E2;
    [apply Z.ltb_lt in E2; lia|].
  assert (Hfix : normalize_tickers (t :: ts) = t :: ts)
    by (rewrite <- Hnorm; apply normalize_tickers_fixed, normalize_tickers_canonical).
  rewrite !normalize_items_strings, Hfix, Hnorm.
  reflexivity.
Qed.

End HandlerFacts.

(** ** The handlers on closed inputs *)

Lemma batch_cap_on_raw_length_witness :
  batch_analysis market
    (JObj [("tickers",
            JList [JStr "aapl"; JStr "aapl"; JStr " "; JStr ""; JNull; JStr "msft";
                   JStr "x"; JStr "x"; JStr "x"; JStr "x"; JStr "x"])])
    start
  = (inr (Response (VDict [("error", VStr "Maximum 10 tickers per batch")]) 400), start).
Proof.
  apply batch_cap_on_raw_length with
    (items := [JStr "aapl"; JStr "aapl"; JStr " "; JStr ""; JNull; JStr "msft";
               JStr "x"; JStr "x"; JStr "x"; JStr "x"; JStr "x"]).
  - reflexivity.
  - cbn [length]. lia.
Defined.

Lemma batch_counts_witness :
  exists r st',
    batch_analysis market (batch_request ["aapl"; "msft"; "goog"]) start = (inr r, st')
    /\ field "processed_count" (body r) = Some (VInt 2)
    /\ field "requested_count" (body r) = Some (VInt 3)
    /\ (size (<["AAPL":=710%nat]> (<["MSFT":=655%nat]> (∅ : gmap string nat))) < 3)%nat.
Proof.
  eexists _, _. split; [vm_compute; reflexivity|].
  edestruct (batch_counts market (batch_request ["aapl"; "msft"; "goog"]) start)
    as (given & items & tickers & m & w & Hg & Hi & Hn & Hf & _ & _ & Hp & Hq & _ & Hlt);
    [vm_compute; reflexivity|reflexivity|].
  injection Hg as <-. injection Hi as <-. injection Hn as <-.
  injection Hf as <- _.
  change (dom (<["AAPL":=710%nat]> (<["MSFT":=655%nat]> (∅ : gmap string nat)))
          ⊆ (list_to_set ["AAPL"; "MSFT"; "GOOG"] : gset string) ->
          forall t, t ∈ ["AAPL"; "MSFT"; "GOOG"] ->
          (<["AAPL":=710%nat]> (<["MSFT":=655%nat]> (∅ : gmap string nat))) !! t = None ->
          (size (<["AAPL":=710%nat]> (<["MSFT":=655%nat]> (∅ : gmap string nat))) < 3)%nat)
    in Hlt.
  rewrite Hp, Hq.
  split; [vm_compute; reflexivity|]. split; [vm_compute; reflexivity|].
  apply (Hlt) with (t := "GOOG").
  - rewrite !dom_insert_L, dom_empty_L. cbn [list_to_set].
    intros x Hx. rewrite !elem_of_union, !elem_of_singleton in *.
    rewrite elem_of_empty in Hx. tauto.
  - do 2 apply list_elem_of_further. apply list_elem_of_here.
  - vm_compute. reflexivity.
Defined.

Lemma absent_ticker_is_not_found_witness :
  exists r1 s1 r2 s2,
    company_analysis market "nflx" start = (inr r1, s1)
    /\ company_analysis_full market "nflx" start = (inr r2, s2)
    /\ status r1 = 404 /\ status r2 = 404
    /\ keys (body r1) = ["error"] /\ keys (body r2) = ["error"].
Proof.
  destruct (absent_ticker_is_not_found market "nflx" start ∅ tt) as [H1 H2].
  - vm_compute. reflexivity.
  - vm_compute. reflexivity.
  - eexists _, _, _, _. rewrite H1, H2.
    repeat split; reflexivity.
Defined.

Lemma news_count_is_headline_count_witness :
  exists r st',
    get_news market "aapl" (Some 50) start = (inr r, st')
    /\ field "count" (body r) = Some (VInt 2)
    /\ In (CallHeadlines "AAPL" 10) (trace st').
Proof.
  eexists _, _. split; [vm_compute; reflexivity|].
  edestruct (news_count_is_headline_count market "aapl" (Some 50) start)
    as (hs & w & Hcall & _ & Hcount); [vm_compute; reflexivity|reflexivity|].
  injection Hcall as <- _.
  rewrite Hcount. split; [reflexivity|].
  cbn [trace]. right. left. reflexivity.
Defined.



(** C7 fails as stated: the 400 that [batch_analysis] returns for a
    missing body is an object with the single member [error]; the status
    is not in it. *)
Lemma route_error_body_without_status :
  exists r st',
    batch_analysis market JNull start = (inr r, st')
    /\ status r = 400
    /\ body r = VDict [("error", VStr "No JSON data provided")]
    /\ field "status" (body r) = None
    /\ mirrors_status r = false.
Proof.
  eexists _, _. split; [vm_compute; reflexivity|]. repeat split.
Qed.

Lemma error_bodies_witness :
  exists r st',
    serve market (GetCompanyAnalysis "nflx") start = (inr r, st')
    /\ status r = 404
    /\ (exists msg, body r = VDict [("error", VStr msg)])
    /\ mirrors_status r = false
    /\ mirrors_status (not_found_error (Exn "NotFound" "404 Not Found") : response nat nat string)
       = true.
Proof.
  eexists _, _. split; [vm_compute; reflexivity|].
  edestruct (error_bodies market (GetCompanyAnalysis "nflx") start)
    as (Hobj & Hmirror & Hhandlers); [vm_compute; reflexivity|reflexivity|].
  split; [reflexivity|]. split; [exact Hobj|]. split; [exact Hmirror|].
  apply (Hhandlers (Exn "NotFound" "404 Not Found") not_found_error).
  left. reflexivity.
Defined.

(** C8 fails as stated: the body of the health check has no payload
    marked [success: true] and no error. *)
Lemma health_body_is_neither :
  exists r st',
    serve market GetHealth start = (inr r, st')
    /\ keys (body r) = ["status"; "timestamp"; "version"]
    /\ says_success (body r) = false
    /\ has_error (body r) = false
    /\ exclusive (body r) = false.
Proof.
  eexists _, _. split; [vm_compute; reflexivity|]. repeat split.
Qed.

Lemma envelope_exclusive_witness :
  exists r st',
    serve market (GetCompanyAnalysisFull "msft") start = (inr r, st')
    /\ status r = 200
    /\ exclusive (body r) = true
    /\ says_success (body r) = true
    /\ has_payload (body r) = true
    /\ has_error (body r) = false.
Proof.
  eexists _, _. split; [vm_compute; reflexivity|].
  pose proof (envelope_exclusive market (GetCompanyAnalysisFull "msft") start)
    as Hexcl.
  edestruct Hexcl as (Hex & [(Hok & Hs & Hp & He & _)|(Hno & _)]);
    [vm_compute; reflexivity| |exfalso; apply Hno; reflexivity].
  split; [exact Hok|]. split; [exact Hex|]. split; [exact Hs|].
  split; [exact Hp|exact He].
Defined.

(** ** Further properties of the normalisation *)

Section NormalisationMore.
Import PyStr PyStrFacts.

(** The comprehension returns exactly when every element is a string. *)
Theorem normalize_items_returns_iff (items : list json) :
  (exists tickers, normalize_items items = inr tickers)
  <-> Forall (fun x => is_string x = true) items.
Proof.
  induction items as [|x items IH].
  - split; [constructor|]. intros _. now exists [].
  - split.
    + intros [ts Hts]. cbn [normalize_items] in Hts.
      destruct x; try discriminate Hts. constructor; [reflexivity|].
      apply IH. cbn [Py.strip Py.upper] in Hts.
      destruct (truthy (strip s)); [|now exists ts].
      destruct (normalize_items items) as [e|out]; [discriminate|now exists out].
    + intros Hall. inversion Hall as [|? ? Hx Hrest]; subst.
      destruct x; try discriminate Hx.
      apply IH in Hrest as [out Hout].
      cbn [normalize_items Py.strip Py.upper]. rewrite Hout.
      destruct (truthy (strip s)); eauto.
Qed.

(** What the comprehension returns is the normalisation of the strings it
    was given. *)
Lemma normalize_items_inv (items : list json) (tickers : list string) :
  normalize_items items = inr tickers ->
  exists raw, items = map JStr raw /\ tickers = normalize_tickers raw.
Proof.
  revert tickers. induction items as [|x items IH]; intros ts Hts.
  - injection Hts as <-. now exists [].
  - cbn [normalize_items] in Hts. destruct x; try discriminate Hts.
    cbn [Py.strip Py.upper] in Hts.
    destruct (truthy (strip s)) eqn:E.
    + destruct (normalize_items items) as [e|out] eqn:Hout; [discriminate|].
      injection Hts as <-. destruct (IH out eq_refl) as (raw & -> & ->).
      exists (s :: raw). cbn [map normalize_tickers]. now rewrite E.
    + destruct (IH ts Hts) as (raw & -> & ->).
      exists (s :: raw). cbn [map normalize_tickers]. now rewrite E.
Qed.

(** What the normalisation produces is non-empty and is left as it is
    by [strip] and by [upper]. *)
Lemma normalize_tickers_fixed_points (raw : list string) :
  Forall (fun t => truthy t = true /\ strip t = t /\ upper t = t)
         (normalize_tickers raw).
Proof.
  induction raw as [|t raw IH]; cbn [normalize_tickers]; [constructor|].
  destruct (truthy (strip t)) eqn:E; [|exact IH].
  constructor; [|exact IH]. repeat split.
  - now rewrite strip_upper, truthy_upper.
  - apply strip_idem.
  - now rewrite strip_upper, upper_idem.
Qed.

(** The normalisation is empty exactly when every entry is blank. *)
Lemma normalize_tickers_nil_iff (raw : list string) :
  normalize_tickers raw = [] <-> Forall (fun t => blank t = true) raw.
Proof.
  unfold blank. induction raw as [|t raw IH]; [split; [constructor|reflexivity]|].
  cbn [normalize_tickers]. destruct (truthy (strip t)) eqn:E.
  - split; [discriminate|]. intros H. inversion H as [|? ? Ht _]; subst.
    rewrite E in Ht. discriminate.
  - rewrite IH. split; [now constructor; [rewrite E|]|].
    intros H. now inversion H.
Qed.

(** Letter case and surrounding white space of the entries do not matter. *)
Theorem normalize_ignores_case_and_padding (raw : list string) :
  normalize_tickers (map upper raw) = normalize_tickers raw
  /\ normalize_tickers (map strip raw) = normalize_tickers raw.
Proof.
  split; induction raw as [|t raw IH]; try reflexivity;
    cbn [map normalize_tickers]; rewrite IH.
  - now rewrite upper_idem, strip_upper, truthy_upper.
  - now rewrite !strip_upper, !strip_idem.
Qed.

End NormalisationMore.

(** ** Further properties of the handlers *)

(** The events a run added, once the trace is written as old ++ new. *)
Ltac new_events :=
  eexists; split;
  [ first [ symmetry; apply app_nil_r
          | rewrite <- ?app_assoc; reflexivity ]
  | cbn [app] ].

Section HandlerFactsMore.

Context {Score Breakdown Headline World : Type}.
Variable env : collaborators Score Breakdown Headline World.
Abbreviation resp := (response Score Breakdown Headline).

(** Each route answers only with its own statuses: 200 for the health
    check, 200 or 500 for the chart data and the news, 200, 404 or 500 for
    the single and the full analysis, 200, 400 or 500 for the batch
    analysis. *)
Theorem route_statuses (req : request) (st st' : state World) (r : resp) :
  serve env req st = (inr r, st') ->
  match req with
  | GetHealth => status r = 200
  | GetChartData | GetNews _ _ => status r = 200 \/ status r = 500
  | GetCompanyAnalysis _ | GetCompanyAnalysisFull _ =>
      status r = 200 \/ status r = 404 \/ status r = 500
  | PostBatchAnalysis _ =>
      status r = 200 \/ status r = 400 \/ status r = 500
  end.
Proof.
  intros Hrun. destruct req; run_cases Hrun; tauto.
Qed.

(** A request that [batch_analysis] refuses with 400 leaves no trace: no
    log line, no collaborator call, the world as it was.  The message is
    one of four. *)
Theorem batch_rejection_touches_nothing
    (data : json) (st st' : state World) (r : resp) :
  batch_analysis env data st = (inr r, st') ->
  status r = 400 ->
  st' = st
  /\ exists msg,
       body r = VDict [("error", VStr msg)]
       /\ In msg ["No JSON data provided"; "No tickers provided";
                  "Maximum 10 tickers per batch"; "No valid tickers provided"].
Proof.
  intros Hrun Hbad. run_cases Hrun; try discriminate Hbad;
    (split; [reflexivity|]); eexists; (split; [reflexivity|]);
    cbn [In]; tauto.
Qed.

(** A list of one to ten entries that are all blank is refused with
    [No valid tickers provided]. *)
Theorem batch_all_blank (raw : list string) (st : state World) :
  raw <> [] ->
  (length raw <= 10)%nat ->
  Forall (fun t => blank t = true) raw ->
  batch_analysis env (batch_request raw) st
  = (inr (Response (VDict [("error", VStr "No valid tickers provided")]) 400), st).
Proof.
  intros Hne Hlen Hblank. apply normalize_tickers_nil_iff in Hblank.
  destruct raw as [|x raw]; [congruence|].
  unfold batch_analysis, batch_request, try_catch, bind, lift, ret, jsonify_with.
  cbn [Py.truthy negb Py.get Py.assoc String.eqb Ascii.eqb Bool.eqb map Py.len Py.iter].
  rewrite <- !(map_cons JStr), !length_map.
  destruct (10 <? Z.of_nat (length (x :: raw))) eqn:E; [apply Z.ltb_lt in E; lia|].
  now rewrite normalize_items_strings, Hblank.
Qed.

(** A body that is not an object (a bare list, a string, a number, [true])
    is answered 500: [get] is missing.  Nothing is called. *)
Theorem batch_body_not_an_object (data : json) (st : state World) :
  Py.truthy data = true ->
  is_dict data = false ->
  batch_analysis env data st
  = (inr (Response (VDict [("error", VStr "Batch analysis failed")]) 500),
     State (trace st
            ++ [LogError ("Error in batch analysis: '" +:+ Py.type_name data
                          +:+ "' object has no attribute 'get'")])%list
           (world st)).
Proof.
  intros Htrue Hdict. unfold_handlers. rewrite Htrue. cbn [negb].
  destruct data; try discriminate Hdict; reflexivity.
Qed.

(** A list of one to ten entries one of which is not a string is answered
    500, whatever the other entries are; only the log line is added. *)
Theorem batch_entry_not_a_string
    (fields : list (string * json)) (items : list json) (st : state World) :
  Py.assoc "tickers" fields = Some (JList items) ->
  (length items <= 10)%nat ->
  Exists (fun x => is_string x = false) items ->
  exists msg,
    batch_analysis env (JObj fields) st
    = (inr (Response (VDict [("error", VStr "Batch analysis failed")]) 500),
       State (trace st ++ [LogError msg])%list (world st)).
Proof.
  intros Hget Hlen Hbad.
  destruct (normalize_items items) as [e|ts] eqn:Hnorm.
  - exists ("Error in batch analysis: " +:+ exn_str e).
    unfold_handlers.
    destruct fields as [|kv fields]; [discriminate|].
    cbn [Py.truthy negb Py.get]. rewrite Hget.
    destruct items as [|i items]; [inversion Hbad|].
    cbn [Py.truthy negb Py.len Py.iter].
    destruct (10 <? Z.of_nat (length (i :: items))) eqn:E; [apply Z.ltb_lt in E; lia|].
    now rewrite Hnorm.
  - exfalso.
    destruct (normalize_items_inv _ _ Hnorm) as (raw & -> & _).
    apply Exists_exists in Hbad as (x & Hin & Hx).
    apply list_elem_of_In, in_map_iff in Hin as (t & <- & _). discriminate Hx.
Qed.

(** A string where the list is expected is taken character by character. *)
Theorem batch_tickers_as_string (s : string) (st : state World) :
  batch_analysis env (JObj [("tickers", JStr s)]) st
  = batch_analysis env (batch_request (PyStr.chars s)) st.
Proof.
  assert (Hlen : forall u, length (PyStr.chars u) = String.length u)
    by (induction u; cbn; congruence).
  unfold batch_analysis, batch_request, try_catch, bind, lift.
  cbn [Py.truthy negb Py.get Py.assoc String.eqb Ascii.eqb Bool.eqb].
  destruct s as [|c s]; [reflexivity|].
  cbn [PyStr.chars map Py.truthy PyStr.truthy negb Py.len Py.iter].
  rewrite <- !(map_cons JStr), !length_map. cbn [length String.length].
  now rewrite Hlen.
Qed.

End HandlerFactsMore.

Section HandlerTraces.

Context {Score Breakdown Headline World : Type}.
Variable env : collaborators Score Breakdown Headline World.
Abbreviation resp := (response Score Breakdown Headline).

Lemma len_iter (x : json) (z : Z) (items : list json) :
  Py.len x = inr z -> Py.iter x = inr items -> z = Z.of_nat (length items).
Proof.
  assert (Hlen : forall u, length (PyStr.chars u) = String.length u)
    by (induction u; cbn; congruence).
  destruct x; cbn; try discriminate; intros [= <-] [= <-];
    now rewrite ?length_map, ?Hlen.
Qed.

(** Whatever body [batch_analysis] receives, the scoring collaborator is
    only ever asked about one to ten tickers, each of them non-empty and
    left as it is by [strip] and by [upper]. *)
Theorem batch_scoring_argument
    (data : json) (st st' : state World) (r : resp) :
  batch_analysis env data st = (inr r, st') ->
  exists new,
    trace st' = (trace st ++ new)%list
    /\ forall tickers, In (CallScores tickers) new ->
         (1 <= length tickers <= 10)%nat
         /\ Forall (fun t => PyStr.truthy t = true
                            /\ PyStr.strip t = t
                            /\ PyStr.upper t = t) tickers.
Proof.
  intros Hrun. run_cases Hrun; new_events;
    cbn [In]; intros ts Hin;
    repeat match type of Hin with
      | _ \/ _ => destruct Hin as [Hin|Hin]
      | False => destruct Hin
      end; try discriminate Hin; injection Hin as <-;
    match goal with
    | Hlen : Py.len ?j = inr ?z, Hiter : Py.iter ?j = inr ?items,
      Hnorm : normalize_items ?items = inr _, Hcap : (10 <? ?z) = false |- _ =>
        pose proof (len_iter _ _ _ Hlen Hiter) as Hz;
        apply Z.ltb_ge in Hcap;
        destruct (normalize_items_inv _ _ Hnorm) as (raw & -> & Hts);
        pose proof (normalize_tickers_length raw) as Hshort;
        pose proof (normalize_tickers_fixed_points raw) as Hcanon;
        rewrite <- Hts in Hshort, Hcanon; rewrite length_map in Hz
    end;
    (split; [cbn [length] in *; lia|exact Hcanon]).
Qed.

(** The three ticker routes read the ticker only through [upper]: two
    spellings of one symbol are answered alike. *)
Theorem ticker_routes_ignore_case
    (t1 t2 : string) (count : option Z) (st : state World) :
  PyStr.upper t1 = PyStr.upper t2 ->
  company_analysis env t1 st = company_analysis env t2 st
  /\ company_analysis_full env t1 st = company_analysis_full env t2 st
  /\ get_news env t1 count st = get_news env t2 count st.
Proof.
  intros Heq. unfold company_analysis, company_analysis_full, get_news.
  now rewrite Heq.
Qed.

(** The single and the full analysis ask the scoring collaborator first,
    about the uppercased ticker alone; the ticker is not trimmed. *)
Theorem single_scoring_argument
    (ticker : string) (st st' : state World) (r : resp) :
  company_analysis env ticker st = (inr r, st')
  \/ company_analysis_full env ticker st = (inr r, st') ->
  exists msg rest,
    trace st'
    = (trace st ++ LogInfo msg :: CallScores [PyStr.upper ticker] :: rest)%list
    /\ Forall (fun ev => is_scores_call ev = false) rest.
Proof.
  intros [Hrun|Hrun]; run_cases Hrun; eexists _, _;
    (split; [rewrite <- ?app_assoc; reflexivity|]);
    repeat constructor.
Qed.

(** A request costs each collaborator at most one call and the clock at
    most one reading. *)
Theorem at_most_one_call_each
    (req : request) (st st' : state World) (r : resp) :
  serve env req st = (inr r, st') ->
  exists new,
    trace st' = (trace st ++ new)%list
    /\ (count_events is_scores_call new <= 1)%nat
    /\ (count_events is_breakdown_call new <= 1)%nat
    /\ (count_events is_headlines_call new <= 1)%nat
    /\ (count_events is_clock_read new <= 1)%nat.
Proof.
  intros Hrun. destruct req; run_cases Hrun; new_events;
    cbv [count_events List.filter is_scores_call is_breakdown_call
         is_headlines_call is_clock_read length app]; lia.
Qed.

(** What a route never calls: the health check no collaborator, the chart
    data only the breakdown, the news only the headlines; the single and
    the batch analysis never ask for headlines. *)
Theorem calls_by_route
    (req : request) (st st' : state World) (r : resp) :
  serve env req st = (inr r, st') ->
  exists new,
    trace st' = (trace st ++ new)%list
    /\ match req with
       | GetHealth => new = [ReadClock]
       | GetChartData =>
           Forall (fun ev => is_call ev = true -> ev = CallBreakdown) new
           /\ count_events is_clock_read new = 0%nat
       | GetNews _ _ =>
           count_events is_scores_call new = 0%nat
           /\ count_events is_breakdown_call new = 0%nat
       | GetCompanyAnalysis _ | PostBatchAnalysis _ =>
           count_events is_headlines_call new = 0%nat
       | GetCompanyAnalysisFull _ => True
       end.
Proof.
  intros Hrun. destruct req; run_cases Hrun; new_events;
    first [ reflexivity
          | exact I
          | split; [repeat constructor; cbn; intros; congruence | reflexivity]
          | split; reflexivity ].
Qed.

(** The clock is read only for a 200 answer, after the last collaborator
    call; the four envelope routes read it for every 200 answer. *)
Theorem clock_read_at_assembly
    (req : request) (st st' : state World) (r : resp) :
  serve env req st = (inr r, st') ->
  exists new,
    trace st' = (trace st ++ new)%list
    /\ (In ReadClock new ->
        status r = 200
        /\ exists before after,
             new = (before ++ ReadClock :: after)%list
             /\ Forall (fun ev => is_call ev = false) after)
    /\ (status r = 200 -> req <> GetChartData -> In ReadClock new).
Proof.
  intros Hrun. destruct req; run_cases Hrun; new_events; (split; [intros Hin|]);
    try (intros Hok Hreq; first [discriminate Hok | congruence
                                | cbn [In]; tauto]);
    cbn [In] in Hin;
    repeat match type of Hin with
      | _ \/ _ => destruct Hin as [Hin|Hin]
      | False => destruct Hin
      end; try discriminate Hin;
    (split; [reflexivity|]);
    first [ exists [], []; split; [reflexivity|constructor]
          | eexists [_], []; split; [reflexivity|constructor]
          | eexists [_; _], []; split; [reflexivity|constructor]
          | eexists [_; _], [_]; split; [reflexivity|repeat constructor]
          | eexists [_; _; _], [_]; split; [reflexivity|repeat constructor]
          | eexists [_; _; _], []; split; [reflexivity|constructor]
          | eexists [_; _; _; _], []; split; [reflexivity|constructor] ].
Qed.

(** An error is logged exactly for the 500 answers: refusals (400) and
    unknown tickers (404) log none. *)
Theorem error_logged_iff_500
    (req : request) (st st' : state World) (r : resp) :
  serve env req st = (inr r, st') ->
  exists new,
    trace st' = (trace st ++ new)%list
    /\ (status r = 500 <-> count_events is_error_log new = 1%nat)
    /\ (status r <> 500 <-> count_events is_error_log new = 0%nat).
Proof.
  intros Hrun. destruct req; run_cases Hrun; new_events;
    cbv [count_events List.filter is_error_log length app];
    split; split; intros; congruence || lia || reflexivity.
Qed.

End HandlerTraces.

Section HandlerComposition.

Context {Score Breakdown Headline World : Type}.
Variable env : collaborators Score Breakdown Headline World.
Abbreviation resp := (response Score Breakdown Headline).

(** The full analysis is all or nothing: when the score and the breakdown
    were obtained and the news collaborator raises, the answer is 500 and
    carries no score, although the single analysis of the same ticker in
    the same world answers 200 with it. *)
Theorem full_analysis_needs_news
    (ticker : string) (st : state World) (m : gmap string Score) (sc : Score)
    (b : Breakdown) (e : exn) (w1 w2 w3 : World) :
  fetch_and_compute_credit_scores env [PyStr.upper ticker] (world st) = (inr m, w1) ->
  m !! PyStr.upper ticker = Some sc ->
  get_score_breakdown_data env w1 = (inr b, w2) ->
  top_headlines env (PyStr.upper ticker) 5 w2 = (inl e, w3) ->
  company_analysis_full env ticker st
  = (inr (Response
            (VDict [("error",
                     VStr ("Failed to analyze " +:+ PyStr.upper ticker
                           +:+ ": " +:+ exn_str e))])
            500),
     State (trace st
            ++ [LogInfo ("Full analysis for ticker: " +:+ PyStr.upper ticker);
                CallScores [PyStr.upper ticker];
                CallBreakdown;
                CallHeadlines (PyStr.upper ticker) 5;
                LogError ("Error in full analysis for " +:+ PyStr.upper ticker
                          +:+ ": " +:+ exn_str e)])%list
           w3)
  /\ exists (r : resp) (st' : state World),
       company_analysis env ticker st = (inr r, st')
       /\ status r = 200
       /\ field "credit_scores" (body r) = Some (VScore sc).
Proof.
  intros Hfetch Hfound Hbreak Hnews. split.
  - unfold_handlers. rewrite Hfetch, Hfound. cbn [world trace].
    rewrite Hbreak. cbn [world trace]. rewrite Hnews. cbn [world trace].
    rewrite <- !app_assoc. reflexivity.
  - unfold_handlers. rewrite Hfetch, Hfound. cbn [world trace].
    rewrite Hbreak. cbn [world trace].
    destruct (now_isoformat env w2) as [t w4].
    eexists _, _. repeat split.
Qed.

(** When the score was obtained and the breakdown collaborator raises, the
    single and the full analysis answer 500 with the text of the
    exception; the full analysis does not go on to ask for headlines. *)
Theorem analysis_needs_breakdown
    (ticker : string) (st : state World) (m : gmap string Score) (sc : Score)
    (e : exn) (w1 w2 : World) :
  fetch_and_compute_credit_scores env [PyStr.upper ticker] (world st) = (inr m, w1) ->
  m !! PyStr.upper ticker = Some sc ->
  get_score_breakdown_data env w1 = (inl e, w2) ->
  company_analysis env ticker st
  = (inr (Response
            (VDict [("error",
                     VStr ("Failed to analyze " +:+ PyStr.upper ticker
                           +:+ ": " +:+ exn_str e))])
            500),
     State (trace st
            ++ [LogInfo ("Analyzing ticker: " +:+ PyStr.upper ticker);
                CallScores [PyStr.upper ticker];
                CallBreakdown;
                LogError ("Error analyzing " +:+ PyStr.upper ticker
                          +:+ ": " +:+ exn_str e)])%list
           w2)
  /\ company_analysis_full env ticker st
     = (inr (Response
               (VDict [("error",
                        VStr ("Failed to analyze " +:+ PyStr.upper ticker
                              +:+ ": " +:+ exn_str e))])
               500),
        State (trace st
               ++ [LogInfo ("Full analysis for ticker: " +:+ PyStr.upper ticker);
                   CallScores [PyStr.upper ticker];
                   CallBreakdown;
                   LogError ("Error in full analysis for " +:+ PyStr.upper ticker
                             +:+ ": " +:+ exn_str e)])%list
              w2).
Proof.
  intros Hfetch Hfound Hbreak.
  split; unfold_handlers; rewrite Hfetch, Hfound; cbn [world trace];
    rewrite Hbreak; cbn [world trace]; rewrite <- !app_assoc; reflexivity.
Qed.

(** A 200 answer of the full analysis: the collaborators were asked in the
    order scores, breakdown, headlines (five of them), each in the world
    the previous one left, the clock was read last, and the body holds
    what they returned, with [news.count] the number of headlines. *)
Theorem full_analysis_success
    (ticker : string) (st st' : state World) (r : resp) :
  company_analysis_full env ticker st = (inr r, st') ->
  status r = 200 ->
  exists m sc b hs t w1 w2 w3,
    fetch_and_compute_credit_scores env [PyStr.upper ticker] (world st) = (inr m, w1)
    /\ m !! PyStr.upper ticker = Some sc
    /\ get_score_breakdown_data env w1 = (inr b, w2)
    /\ top_headlines env (PyStr.upper ticker) 5 w2 = (inr hs, w3)
    /\ now_isoformat env w3 = (t, world st')
    /\ trace st'
       = (trace st
          ++ [LogInfo ("Full analysis for ticker: " +:+ PyStr.upper ticker);
              CallScores [PyStr.upper ticker];
              CallBreakdown;
              CallHeadlines (PyStr.upper ticker) 5;
              ReadClock])%list
    /\ body r
       = VDict [("ticker", VStr (PyStr.upper ticker));
                ("credit_scores", VScore sc);
                ("breakdown", VBreakdown b);
                ("news", VDict [("headlines", VHeadlines hs);
                                ("count", VInt (Z.of_nat (length hs)))]);
                ("success", VBool true);
                ("timestamp", VStr t)].
Proof.
  intros Hrun Hok. run_cases Hrun; try discriminate Hok.
  eexists _, _, _, _, _, _, _, _.
  repeat (split; [eassumption || reflexivity|]).
  split; [now rewrite <- !app_assoc|reflexivity].
Qed.

End HandlerComposition.

(** ** The further properties on closed inputs *)

Lemma route_statuses_witness :
  exists r st',
    serve market (GetCompanyAnalysisFull "nflx") start = (inr r, st')
    /\ (status r = 200 \/ status r = 404 \/ status r = 500).
Proof.
  eexists _, _. split; [vm_compute; reflexivity|].
  eapply (route_statuses market (GetCompanyAnalysisFull "nflx") start).
  vm_compute. reflexivity.
Defined.

Lemma batch_rejection_touches_nothing_witness :
  exists r,
    batch_analysis market (JObj [("symbols", JList [JStr "aapl"])]) start = (inr r, start)
    /\ body r = VDict [("error", VStr "No tickers provided")].
Proof.
  eexists. split; [vm_compute; reflexivity|].
  edestruct (batch_rejection_touches_nothing market
               (JObj [("symbols", JList [JStr "aapl"])]) start)
    as (_ & msg & Hbody & _); [vm_compute; reflexivity|reflexivity|].
  reflexivity.
Defined.

Lemma batch_all_blank_witness :
  batch_analysis market (batch_request [" "; ""]) start
  = (inr (Response (VDict [("error", VStr "No valid tickers provided")]) 400), start).
Proof.
  apply (batch_all_blank market [" "; ""] start).
  - discriminate.
  - cbn [length]. lia.
  - repeat constructor.
Defined.

Lemma batch_body_not_an_object_witness :
  exists r st',
    batch_analysis market (JList [JStr "aapl"; JStr "msft"]) start = (inr r, st')
    /\ status r = 500
    /\ trace st'
       = [LogError "Error in batch analysis: 'list' object has no attribute 'get'"].
Proof.
  eexists _, _.
  rewrite (batch_body_not_an_object market (JList [JStr "aapl"; JStr "msft"]) start);
    [|reflexivity|reflexivity].
  repeat split.
Defined.

Lemma batch_entry_not_a_string_witness :
  exists r st',
    batch_analysis market (JObj [("tickers", JList [JStr "aapl"; JNum 7])]) start
    = (inr r, st')
    /\ status r = 500
    /\ count_events is_call (trace st') = 0%nat.
Proof.
  destruct (batch_entry_not_a_string market
              [("tickers", JList [JStr "aapl"; JNum 7])] [JStr "aapl"; JNum 7] start)
    as (msg & Hrun).
  - reflexivity.
  - cbn [length]. lia.
  - right. left. reflexivity.
  - eexists _, _. rewrite Hrun. repeat split.
Defined.

Lemma batch_scoring_argument_witness :
  exists new,
    new = [CallScores ["AAPL"; "AAPL"; "BRK B"]; CallBreakdown; ReadClock]
    /\ forall tickers, In (CallScores tickers) new ->
         (1 <= length tickers <= 10)%nat
         /\ Forall (fun t => PyStr.truthy t = true
                            /\ PyStr.strip t = t
                            /\ PyStr.upper t = t) tickers.
Proof.
  edestruct (batch_scoring_argument market
               (batch_request [" aapl"; ""; "Aapl "; "brk b"]) start)
    as (new & Htrace & Hall); [vm_compute; reflexivity|].
  exists new. split; [|exact Hall].
  vm_compute in Htrace. subst new. reflexivity.
Defined.

Lemma ticker_routes_ignore_case_witness :
  company_analysis market "aapl" start = company_analysis market "AaPl" start
  /\ company_analysis_full market "aapl" start = company_analysis_full market "AaPl" start
  /\ get_news market "aapl" (Some 4) start = get_news market "AaPl" (Some 4) start.
Proof.
  apply (ticker_routes_ignore_case market "aapl" "AaPl" (Some 4) start).
  reflexivity.
Defined.

Lemma single_scoring_argument_witness :
  exists (st' : state unit) msg rest,
    trace st' = LogInfo msg :: CallScores [" AAPL"] :: rest
    /\ Forall (fun ev => is_scores_call ev = false) rest.
Proof.
  edestruct (single_scoring_argument market " aapl" start)
    as (msg & rest & Htrace & Hrest); [left; vm_compute; reflexivity|].
  eexists _, msg, rest. split; [exact Htrace|exact Hrest].
Defined.

Lemma success_carries_scores_witness :
  exists m w sc,
    fetch_and_compute_credit_scores market ["MSFT"] tt = (inr m, w)
    /\ m !! "MSFT" = Some sc
    /\ sc = 655%nat.
Proof.
  edestruct (success_carries_scores market "msft" start)
    as (m & w & sc & Hfetch & Hfound & Hfield);
    [left; vm_compute; reflexivity|reflexivity|].
  exists m, w, sc. split; [exact Hfetch|]. split; [exact Hfound|].
  vm_compute in Hfield. now injection Hfield as <-.
Defined.

Lemma batch_analysis_normalized_witness :
  batch_analysis market (batch_request ["AAPL"; "GOOG"]) start
  = batch_analysis market (batch_request [" aapl "; "  "; "goog"]) start.
Proof.
  apply (batch_analysis_normalized market [" aapl "; "  "; "goog"] start).
  - cbn [length]. lia.
  - discriminate.
Defined.

Lemma at_most_one_call_each_witness :
  exists new,
    (count_events is_scores_call new <= 1)%nat
    /\ (count_events is_breakdown_call new <= 1)%nat
    /\ (count_events is_headlines_call new <= 1)%nat
    /\ (count_events is_clock_read new <= 1)%nat
    /\ length new = 5%nat.
Proof.
  edestruct (at_most_one_call_each market (GetCompanyAnalysisFull "aapl") start)
    as (new & Htrace & H1 & H2 & H3 & H4); [vm_compute; reflexivity|].
  exists new. repeat (split; [assumption|]).
  vm_compute in Htrace. subst new. reflexivity.
Defined.

Lemma calls_by_route_witness :
  exists new,
    count_events is_scores_call new = 0%nat
    /\ count_events is_breakdown_call new = 0%nat
    /\ count_events is_headlines_call new = 1%nat.
Proof.
  edestruct (calls_by_route market (GetNews "aapl" None) start)
    as (new & Htrace & H1 & H2); [vm_compute; reflexivity|].
  exists new. split; [exact H1|]. split; [exact H2|].
  vm_compute in Htrace. subst new. reflexivity.
Defined.

Lemma clock_read_at_assembly_witness :
  exists before after,
    [LogInfo "Analyzing ticker: AAPL"; CallScores ["AAPL"]; CallBreakdown;
     ReadClock; LogInfo "Successfully analyzed AAPL"]
    = (before ++ ReadClock :: after)%list
    /\ Forall (fun ev => is_call ev = false) after.
Proof.
  edestruct (clock_read_at_assembly market (GetCompanyAnalysis "aapl") start)
    as (new & Htrace & Honly & Hread); [vm_compute; reflexivity|].
  vm_compute in Htrace. subst new.
  destruct Honly as (_ & before & after & Hsplit & Hafter).
  - do 3 right. left. reflexivity.
  - exists before, after. split; [exact Hsplit|exact Hafter].
Defined.

Lemma error_logged_iff_500_witness :
  exists new,
    count_events is_error_log new = 0%nat
    /\ new = [LogInfo "Analyzing ticker: NFLX"; CallScores ["NFLX"]].
Proof.
  edestruct (error_logged_iff_500 market (GetCompanyAnalysis "nflx") start)
    as (new & Htrace & _ & Hnone); [vm_compute; reflexivity|].
  exists new. split; [apply Hnone; discriminate|].
  vm_compute in Htrace. subst new. reflexivity.
Defined.

Lemma full_analysis_needs_news_witness :
  exists r1 s1 r2 s2,
    company_analysis_full (newsless (Exn "Timeout" "news feed timed out")) "aapl" start
    = (inr r1, s1)
    /\ company_analysis (newsless (Exn "Timeout" "news feed timed out")) "aapl" start
       = (inr r2, s2)
    /\ status r1 = 500 /\ status r2 = 200.
Proof.
  destruct (full_analysis_needs_news (newsless (Exn "Timeout" "news feed timed out"))
              "aapl" start {["AAPL" := 710%nat]} 710%nat 4%nat
              (Exn "Timeout" "news feed timed out") tt tt tt)
    as (Hfull & r & st' & Hsingle & Hok & _);
    [vm_compute; reflexivity|vm_compute; reflexivity|reflexivity|reflexivity|].
  eexists _, _, r, st'. rewrite Hfull. repeat split; assumption.
Defined.

Lemma analysis_needs_breakdown_witness :
  exists r1 s1 r2 s2,
    company_analysis (chartless (Exn "IOError" "weights file missing")) "msft" start
    = (inr r1, s1)
    /\ company_analysis_full (chartless (Exn "IOError" "weights file missing")) "msft" start
       = (inr r2, s2)
    /\ status r1 = 500 /\ status r2 = 500
    /\ count_events is_headlines_call (trace s2) = 0%nat.
Proof.
  destruct (analysis_needs_breakdown (chartless (Exn "IOError" "weights file missing"))
              "msft" start {["MSFT" := 655%nat]} 655%nat
              (Exn "IOError" "weights file missing") tt tt)
    as (Hsingle & Hfull);
    [vm_compute; reflexivity|vm_compute; reflexivity|reflexivity|].
  eexists _, _, _, _. rewrite Hsingle, Hfull. repeat split.
Defined.

Lemma full_analysis_success_witness :
  exists hs,
    top_headlines market "AAPL" 5 tt = (inr hs, tt)
    /\ length hs = 2%nat.
Proof.
  edestruct (full_analysis_success market "aapl" start)
    as (m & sc & b & hs & t & w1 & w2 & w3 & _ & _ & _ & Hnews & _);
    [vm_compute; reflexivity|reflexivity|].
  exists hs. destruct w2, w3. split; [exact Hnews|].
  now injection Hnews as <-.
Defined.
